(** * Verification of the TCC thermostat accessory of homebridge-resideo

    A shallow embedding of [TCCthermostat] (src/devices/device.ts).
    JavaScript numbers are modelled as exact rationals [Q]; [Math.round]
    is [floor (x + 1/2)].  The accessory object is an explicit state record
    threaded through a small state/exception/event-log monad: asynchronous
    methods are computations in that monad, a thrown (awaited) exception is
    the [None] result, and every observable effect (characteristic updates,
    HTTP requests, callbacks, subject emissions) is an [Event] in the log. *)

From Stdlib Require Import QArith Qround Qabs Lqa Lia ZArith Bool List String.
Import ListNotations.
Open Scope string_scope.

(** ** Enumerations of the HomeKit characteristics *)

(** [Characteristic.TargetHeatingCoolingState]: OFF = 0, HEAT = 1, COOL = 2, AUTO = 3. *)
Inductive THCS := OFF | HEAT | COOL | AUTO.

Definition THCS_value (m : THCS) : Z :=
  match m with OFF => 0 | HEAT => 1 | COOL => 2 | AUTO => 3 end.

Definition THCS_eqb (a b : THCS) : bool := Z.eqb (THCS_value a) (THCS_value b).

(** [Characteristic.TemperatureDisplayUnits]: CELSIUS = 0, FAHRENHEIT = 1. *)
Inductive TDU := CELSIUS | FAHRENHEIT.

(** [Characteristic.TargetFanState]: MANUAL = 0, AUTO = 1. *)
Inductive TFS := MANUAL | FAN_AUTO.

(** [Characteristic.Active]: INACTIVE = 0, ACTIVE = 1. *)
Inductive ActiveV := INACTIVE | ACTIVE.

Definition TFS_eqb (a b : TFS) : bool :=
  match a, b with
  | MANUAL, MANUAL | FAN_AUTO, FAN_AUTO => true
  | _, _ => false
  end.

Definition Active_eqb (a b : ActiveV) : bool :=
  match a, b with
  | INACTIVE, INACTIVE | ACTIVE, ACTIVE => true
  | _, _ => false
  end.

(** The Honeywell [changeableValues.mode]. *)
Inductive HMode := Off | Heat | Cool | Auto.

(** [this.modes]: Honeywell mode to HomeKit mode. *)
Definition modes (m : HMode) : THCS :=
  match m with Off => OFF | Heat => HEAT | Cool => COOL | Auto => AUTO end.

(** [this.honeywellMode = ['Off', 'Heat', 'Cool', 'Auto']] indexed by the
    HomeKit mode value. *)
Definition honeywellMode : list string := ["Off"; "Heat"; "Cool"; "Auto"].

Definition honeywellMode_at (m : THCS) : string :=
  nth (Z.to_nat (THCS_value m)) honeywellMode "".

(** ** The remote device resource ([TCCDevice]) *)

Record Device := mkDevice {
  units : string;
  indoorTemperature : Q;
  indoorHumidity : Q;
  cv_mode : HMode;                (* changeableValues.mode *)
  heatSetpoint : Q;               (* changeableValues.heatSetpoint *)
  coolSetpoint : Q;               (* changeableValues.coolSetpoint *)
  operationStatus_mode : string;  (* operationStatus.mode *)
  allowedModes : list string;
  minHeatSetpoint : Q;
  maxHeatSetpoint : Q;
  minCoolSetpoint : Q;
  maxCoolSetpoint : Q;
  settings_fan : bool             (* truthiness of settings?.fan *)
}.

(** JavaScript truthiness of a number (NaN is not a rational). *)
Definition truthy (q : Q) : bool := negb (Qeq_bool q 0).

(** The JavaScript comparison [x < y] on numbers. *)
Definition Qlt_bool (x y : Q) : bool := negb (Qle_bool y x).

(** [Array.prototype.includes] on strings. *)
Definition includes (l : list string) (x : string) : bool :=
  existsb (String.eqb x) l.

(** ** Unit translation *)

(** [Math.round]: the nearest integer, halves rounded up. *)
Definition Math_round (x : Q) : Z := Qfloor (x + (1 # 2)).

(** [toCelsius], reading [this.TemperatureDisplayUnits]. *)
Definition toCelsius (TemperatureDisplayUnits : option TDU) (value : Q) : Q :=
  match TemperatureDisplayUnits with
  | Some CELSIUS => value
  | _ => inject_Z (Math_round ((5 # 9) * (value - 32) * 2)) / 2
  end.

(** [toFahrenheit], reading [this.TemperatureDisplayUnits]. *)
Definition toFahrenheit (TemperatureDisplayUnits : option TDU) (value : Q) : Q :=
  match TemperatureDisplayUnits with
  | Some CELSIUS => value
  | _ => inject_Z (Math_round (value * 9 / 5 + 32))
  end.

(** ** [TargetState]: the valid values of TargetHeatingCoolingState *)

Definition TargetState (allowed : list string) : list Z :=
  let ts := removelast [4%Z] in   (* const TargetState = [4]; TargetState.pop(); *)
  let ts := if includes allowed "Cool" then (ts ++ [THCS_value COOL])%list else ts in
  let ts := if includes allowed "Heat" then (ts ++ [THCS_value HEAT])%list else ts in
  let ts := if includes allowed "Off" then (ts ++ [THCS_value OFF])%list else ts in
  let ts := if includes allowed "Auto" then (ts ++ [THCS_value AUTO])%list else ts in
  ts.

(** The Honeywell name of a HomeKit mode. *)
Definition mode_name (m : THCS) : string := honeywellMode_at m.

(** ** The accessory object ([TCCthermostat]) *)

(** Its fields; [fanPipeline] records whether the constructor subscribed the
    fan pipeline to [doFanUpdate] (fan capability present and not hidden). *)
Record St := mkSt {
  device : Device;
  deviceFan : option string;
  CurrentTemperature : Q;
  TargetTemperature : Q;
  CurrentHeatingCoolingState : Z;
  TargetHeatingCoolingState : THCS;
  CoolingThresholdTemperature : Q;
  HeatingThresholdTemperature : Q;
  CurrentRelativeHumidity : Q;
  TemperatureDisplayUnits : option TDU;
  Active : ActiveV;
  TargetFanState : TFS;
  thermostatUpdateInProgress : bool;
  fanUpdateInProgress : bool;
  fanPipeline : bool
}.

(** Field assignments [this.f = v]. *)
Definition set_device (v : Device) (s : St) : St :=
  mkSt v (deviceFan s) (CurrentTemperature s) (TargetTemperature s) (CurrentHeatingCoolingState s) (TargetHeatingCoolingState s) (CoolingThresholdTemperature s) (HeatingThresholdTemperature s) (CurrentRelativeHumidity s) (TemperatureDisplayUnits s) (Active s) (TargetFanState s) (thermostatUpdateInProgress s) (fanUpdateInProgress s) (fanPipeline s).
Definition set_deviceFan (v : option string) (s : St) : St :=
  mkSt (device s) v (CurrentTemperature s) (TargetTemperature s) (CurrentHeatingCoolingState s) (TargetHeatingCoolingState s) (CoolingThresholdTemperature s) (HeatingThresholdTemperature s) (CurrentRelativeHumidity s) (TemperatureDisplayUnits s) (Active s) (TargetFanState s) (thermostatUpdateInProgress s) (fanUpdateInProgress s) (fanPipeline s).
Definition set_CurrentTemperature (v : Q) (s : St) : St :=
  mkSt (device s) (deviceFan s) v (TargetTemperature s) (CurrentHeatingCoolingState s) (TargetHeatingCoolingState s) (CoolingThresholdTemperature s) (HeatingThresholdTemperature s) (CurrentRelativeHumidity s) (TemperatureDisplayUnits s) (Active s) (TargetFanState s) (thermostatUpdateInProgress s) (fanUpdateInProgress s) (fanPipeline s).
Definition set_TargetTemperature (v : Q) (s : St) : St :=
  mkSt (device s) (deviceFan s) (CurrentTemperature s) v (CurrentHeatingCoolingState s) (TargetHeatingCoolingState s) (CoolingThresholdTemperature s) (HeatingThresholdTemperature s) (CurrentRelativeHumidity s) (TemperatureDisplayUnits s) (Active s) (TargetFanState s) (thermostatUpdateInProgress s) (fanUpdateInProgress s) (fanPipeline s).
Definition set_CurrentHeatingCoolingState (v : Z) (s : St) : St :=
  mkSt (device s) (deviceFan s) (CurrentTemperature s) (TargetTemperature s) v (TargetHeatingCoolingState s) (CoolingThresholdTemperature s) (HeatingThresholdTemperature s) (CurrentRelativeHumidity s) (TemperatureDisplayUnits s) (Active s) (TargetFanState s) (thermostatUpdateInProgress s) (fanUpdateInProgress s) (fanPipeline s).
Definition set_TargetHeatingCoolingState (v : THCS) (s : St) : St :=
  mkSt (device s) (deviceFan s) (CurrentTemperature s) (TargetTemperature s) (CurrentHeatingCoolingState s) v (CoolingThresholdTemperature s) (HeatingThresholdTemperature s) (CurrentRelativeHumidity s) (TemperatureDisplayUnits s) (Active s) (TargetFanState s) (thermostatUpdateInProgress s) (fanUpdateInProgress s) (fanPipeline s).
Definition set_CoolingThresholdTemperature (v : Q) (s : St) : St :=
  mkSt (device s) (deviceFan s) (CurrentTemperature s) (TargetTemperature s) (CurrentHeatingCoolingState s) (TargetHeatingCoolingState s) v (HeatingThresholdTemperature s) (CurrentRelativeHumidity s) (TemperatureDisplayUnits s) (Active s) (TargetFanState s) (thermostatUpdateInProgress s) (fanUpdateInProgress s) (fanPipeline s).
Definition set_HeatingThresholdTemperature (v : Q) (s : St) : St :=
  mkSt (device s) (deviceFan s) (CurrentTemperature s) (TargetTemperature s) (CurrentHeatingCoolingState s) (TargetHeatingCoolingState s) (CoolingThresholdTemperature s) v (CurrentRelativeHumidity s) (TemperatureDisplayUnits s) (Active s) (TargetFanState s) (thermostatUpdateInProgress s) (fanUpdateInProgress s) (fanPipeline s).
Definition set_CurrentRelativeHumidity (v : Q) (s : St) : St :=
  mkSt (device s) (deviceFan s) (CurrentTemperature s) (TargetTemperature s) (CurrentHeatingCoolingState s) (TargetHeatingCoolingState s) (CoolingThresholdTemperature s) (HeatingThresholdTemperature s) v (TemperatureDisplayUnits s) (Active s) (TargetFanState s) (thermostatUpdateInProgress s) (fanUpdateInProgress s) (fanPipeline s).
Definition set_TemperatureDisplayUnits (v : option TDU) (s : St) : St :=
  mkSt (device s) (deviceFan s) (CurrentTemperature s) (TargetTemperature s) (CurrentHeatingCoolingState s) (TargetHeatingCoolingState s) (CoolingThresholdTemperature s) (HeatingThresholdTemperature s) (CurrentRelativeHumidity s) v (Active s) (TargetFanState s) (thermostatUpdateInProgress s) (fanUpdateInProgress s) (fanPipeline s).
Definition set_Active (v : ActiveV) (s : St) : St :=
  mkSt (device s) (deviceFan s) (CurrentTemperature s) (TargetTemperature s) (CurrentHeatingCoolingState s) (TargetHeatingCoolingState s) (CoolingThresholdTemperature s) (HeatingThresholdTemperature s) (CurrentRelativeHumidity s) (TemperatureDisplayUnits s) v (TargetFanState s) (thermostatUpdateInProgress s) (fanUpdateInProgress s) (fanPipeline s).
Definition set_TargetFanState (v : TFS) (s : St) : St :=
  mkSt (device s) (deviceFan s) (CurrentTemperature s) (TargetTemperature s) (CurrentHeatingCoolingState s) (TargetHeatingCoolingState s) (CoolingThresholdTemperature s) (HeatingThresholdTemperature s) (CurrentRelativeHumidity s) (TemperatureDisplayUnits s) (Active s) v (thermostatUpdateInProgress s) (fanUpdateInProgress s) (fanPipeline s).
Definition set_thermostatUpdateInProgress (v : bool) (s : St) : St :=
  mkSt (device s) (deviceFan s) (CurrentTemperature s) (TargetTemperature s) (CurrentHeatingCoolingState s) (TargetHeatingCoolingState s) (CoolingThresholdTemperature s) (HeatingThresholdTemperature s) (CurrentRelativeHumidity s) (TemperatureDisplayUnits s) (Active s) (TargetFanState s) v (fanUpdateInProgress s) (fanPipeline s).
Definition set_fanUpdateInProgress (v : bool) (s : St) : St :=
  mkSt (device s) (deviceFan s) (CurrentTemperature s) (TargetTemperature s) (CurrentHeatingCoolingState s) (TargetHeatingCoolingState s) (CoolingThresholdTemperature s) (HeatingThresholdTemperature s) (CurrentRelativeHumidity s) (TemperatureDisplayUnits s) (Active s) (TargetFanState s) (thermostatUpdateInProgress s) v (fanPipeline s).

(** ** Observable effects *)

Inductive Char :=
  | C_TemperatureDisplayUnits | C_CurrentTemperature | C_CurrentRelativeHumidity
  | C_TargetTemperature | C_HeatingThresholdTemperature | C_CoolingThresholdTemperature
  | C_TargetHeatingCoolingState | C_CurrentHeatingCoolingState
  | C_TargetFanState | C_Active.

(** A published characteristic value; [VErr] is the caught exception [e]
    that [apiError] passes to [updateCharacteristic]. *)
Inductive Val :=
  | VErr | VQ (q : Q) | VUnits (u : option TDU) | VMode (m : THCS)
  | VZ (z : Z) | VFan (f : TFS) | VActive (a : ActiveV).

(** The thermostat POST body [{mode, thermostatSetpointStatus, heatSetpoint, coolSetpoint}]. *)
Record Payload := mkPayload {
  p_mode : string;
  p_thermostatSetpointStatus : string;
  p_heatSetpoint : Q;
  p_coolSetpoint : Q
}.

Inductive Channel := ThermostatChannel | FanChannel.

Inductive Event :=
  | Publish (c : Char) (v : Val)       (* service.updateCharacteristic(c, v) *)
  | GetDevice                          (* axios.get(.../thermostats/id) *)
  | GetFan                             (* axios.get(.../thermostats/id/fan) *)
  | PostThermostat (p : Payload)       (* axios.post(.../thermostats/id, p) *)
  | PostFan (mode : string)            (* axios.post(.../thermostats/id/fan, {mode}) *)
  | RefreshAccessToken                 (* platform.refreshAccessToken() *)
  | Next (ch : Channel)                (* doThermostatUpdate.next() / doFanUpdate.next() *)
  | Callback_null.                     (* callback(null) *)

(** What the network answers during one operation: the fetched device
    ([None]: the request rejects), the fetched fan resource, and whether
    the POST succeeds. *)
Record Net := mkNet {
  net_device : option Device;
  net_fan : option string;
  net_post : bool
}.

(** Immutable plugin options read by the accessory. *)
Record Config := mkConfig {
  hide_fan : bool;                     (* options.thermostat.hide_fan *)
  thermostatSetpointStatus : string    (* options.thermostat.thermostatSetpointStatus *)
}.

(** ** A state, exception and event-log monad *)

Definition M (A : Type) : Type := St -> St * list Event * option A.

Definition ret {A} (a : A) : M A := fun s => (s, [], Some a).

Definition bind {A B} (m : M A) (f : A -> M B) : M B :=
  fun s =>
    match m s with
    | (s1, e1, Some a) => let '(s2, e2, r) := f a s1 in (s2, (e1 ++ e2)%list, r)
    | (s1, e1, None) => (s1, e1, None)
    end.

Notation "x <- m ;; k" := (bind m (fun x => k)) (at level 61, m at next level, right associativity).
Notation "m ;; k" := (bind m (fun _ => k)) (at level 61, right associativity).

Definition throw {A} : M A := fun s => (s, [], None).

(** [try { m } catch { h }]. *)
Definition catch (m : M unit) (h : M unit) : M unit :=
  fun s =>
    match m s with
    | (s1, e1, Some a) => (s1, e1, Some a)
    | (s1, e1, None) => let '(s2, e2, r) := h s1 in (s2, (e1 ++ e2)%list, r)
    end.

Definition get : M St := fun s => (s, [], Some s).
Definition modify (f : St -> St) : M unit := fun s => (f s, [], Some tt).
Definition emit (e : Event) : M unit := fun s => (s, [e], Some tt).

(** An awaited request: emits the request, then resolves or rejects. *)
Definition await {A} (e : Event) (r : option A) : M A :=
  emit e ;; match r with Some a => ret a | None => throw end.

Section Thermostat.

Variable cfg : Config.

(** [this.device.settings?.fan && !this.platform.config.options?.thermostat?.hide_fan] *)
Definition fanEnabled (s : St) : bool := settings_fan (device s) && negb (hide_fan cfg).

(** The last block of [parseStatus]: "Set the Target Fan State". *)
Definition parseFanState (s : St) : St :=
  if fanEnabled s then
    match deviceFan s with
    | Some fm =>
        if String.eqb fm "Auto" then set_Active INACTIVE (set_TargetFanState FAN_AUTO s)
        else if String.eqb fm "On" then set_Active ACTIVE (set_TargetFanState MANUAL s)
        else if String.eqb fm "Circulate" then set_Active INACTIVE (set_TargetFanState MANUAL s)
        else s
    | None => s
    end
  else s.

(** [parseStatus] *)
Definition parseStatus (s : St) : St :=
  let d := device s in
  let s := if String.eqb (units d) "Fahrenheit" then set_TemperatureDisplayUnits (Some FAHRENHEIT) s else s in
  let s := if String.eqb (units d) "Celsius" then set_TemperatureDisplayUnits (Some CELSIUS) s else s in
  let s := set_CurrentTemperature (toCelsius (TemperatureDisplayUnits s) (indoorTemperature d)) s in
  let s := set_CurrentRelativeHumidity (indoorHumidity d) s in
  let s := if Qlt_bool 0 (heatSetpoint d)
           then set_HeatingThresholdTemperature (toCelsius (TemperatureDisplayUnits s) (heatSetpoint d)) s
           else s in
  let s := if Qlt_bool 0 (coolSetpoint d)
           then set_CoolingThresholdTemperature (toCelsius (TemperatureDisplayUnits s) (coolSetpoint d)) s
           else s in
  let s := set_TargetHeatingCoolingState (modes (cv_mode d)) s in
  let s := set_CurrentHeatingCoolingState
             (if String.eqb (operationStatus_mode d) "Heat" then 1%Z
              else if String.eqb (operationStatus_mode d) "Cool" then 2%Z
              else 0%Z) s in
  let s := if THCS_eqb (TargetHeatingCoolingState s) HEAT
           then if Qlt_bool 0 (heatSetpoint d) || truthy (minHeatSetpoint d)
                then set_TargetTemperature (toCelsius (TemperatureDisplayUnits s) (heatSetpoint d)) s
                else s
           else if Qlt_bool 0 (coolSetpoint d) || truthy (minCoolSetpoint d)
                then set_TargetTemperature (toCelsius (TemperatureDisplayUnits s) (coolSetpoint d)) s
                else s in
  parseFanState s.

(** The characteristics [apiError] and [updateHomeKitCharacteristics] touch. *)
Definition thermostat_chars : list Char :=
  [C_TemperatureDisplayUnits; C_CurrentTemperature; C_CurrentRelativeHumidity;
   C_TargetTemperature; C_HeatingThresholdTemperature; C_CoolingThresholdTemperature;
   C_TargetHeatingCoolingState; C_CurrentHeatingCoolingState].

Definition fan_chars : list Char := [C_TargetFanState; C_Active].

Definition value_of (s : St) (c : Char) : Val :=
  match c with
  | C_TemperatureDisplayUnits => VUnits (TemperatureDisplayUnits s)
  | C_CurrentTemperature => VQ (CurrentTemperature s)
  | C_CurrentRelativeHumidity => VQ (CurrentRelativeHumidity s)
  | C_TargetTemperature => VQ (TargetTemperature s)
  | C_HeatingThresholdTemperature => VQ (HeatingThresholdTemperature s)
  | C_CoolingThresholdTemperature => VQ (CoolingThresholdTemperature s)
  | C_TargetHeatingCoolingState => VMode (TargetHeatingCoolingState s)
  | C_CurrentHeatingCoolingState => VZ (CurrentHeatingCoolingState s)
  | C_TargetFanState => VFan (TargetFanState s)
  | C_Active => VActive (Active s)
  end.

Fixpoint publish_all (l : list Char) (v : Char -> Val) : M unit :=
  match l with
  | [] => ret tt
  | c :: l' => emit (Publish c (v c)) ;; publish_all l' v
  end.

(** [updateHomeKitCharacteristics] *)
Definition updateHomeKitCharacteristics : M unit :=
  s <- get ;;
  publish_all thermostat_chars (value_of s) ;;
  if fanEnabled s then publish_all fan_chars (value_of s) else ret tt.

(** [apiError(e)] *)
Definition apiError : M unit :=
  s <- get ;;
  publish_all thermostat_chars (fun _ => VErr) ;;
  if fanEnabled s then publish_all fan_chars (fun _ => VErr) else ret tt.

(** [refreshStatus] *)
Definition refreshStatus (net : Net) : M unit :=
  catch
    (d <- await GetDevice (net_device net) ;;
     modify (set_device d) ;;
     s <- get ;;
     (if fanEnabled s then
        f <- await GetFan (net_fan net) ;;
        modify (set_deviceFan (Some f))
      else ret tt) ;;
     modify parseStatus ;;
     updateHomeKitCharacteristics)
    (emit RefreshAccessToken ;; apiError).

(** The diff test of [pushChanges], in the normalized unit. *)
Definition thermostat_differs (s : St) : bool :=
  let u := TemperatureDisplayUnits s in
  let d := device s in
  negb (Qeq_bool (HeatingThresholdTemperature s) (toCelsius u (heatSetpoint d)))
  || negb (Qeq_bool (CoolingThresholdTemperature s) (toCelsius u (coolSetpoint d)))
  || negb (THCS_eqb (TargetHeatingCoolingState s) (modes (cv_mode d))).

(** The payload [pushChanges] builds. *)
Definition thermostat_payload (s : St) : Payload :=
  let u := TemperatureDisplayUnits s in
  let mode := honeywellMode_at (TargetHeatingCoolingState s) in
  let status := thermostatSetpointStatus cfg in
  if THCS_eqb (TargetHeatingCoolingState s) HEAT then
    mkPayload mode status (toFahrenheit u (TargetTemperature s))
                          (toFahrenheit u (CoolingThresholdTemperature s))
  else if THCS_eqb (TargetHeatingCoolingState s) COOL then
    mkPayload mode status (toFahrenheit u (HeatingThresholdTemperature s))
                          (toFahrenheit u (TargetTemperature s))
  else if THCS_eqb (TargetHeatingCoolingState s) AUTO then
    mkPayload mode status (toFahrenheit u (HeatingThresholdTemperature s))
                          (toFahrenheit u (CoolingThresholdTemperature s))
  else
    mkPayload mode status (toFahrenheit u (HeatingThresholdTemperature s))
                          (toFahrenheit u (CoolingThresholdTemperature s)).

(** [pushChanges] *)
Definition pushChanges (net : Net) : M unit :=
  s <- get ;;
  if thermostat_differs s then
    await (PostThermostat (thermostat_payload s)) (if net_post net then Some tt else None) ;;
    refreshStatus net
  else ret tt.

(** The fan mode [pushFanChanges] sends (the payload defaults to ['Auto']). *)
Definition fan_mode (s : St) : string :=
  let mode := "Auto" in
  if TFS_eqb (TargetFanState s) FAN_AUTO then "Auto"
  else if TFS_eqb (TargetFanState s) MANUAL && Active_eqb (Active s) ACTIVE then "On"
  else if TFS_eqb (TargetFanState s) MANUAL && Active_eqb (Active s) INACTIVE then "Circulate"
  else mode.

(** [pushFanChanges] *)
Definition pushFanChanges (net : Net) : M unit :=
  s <- get ;;
  (if fanEnabled s then
     await (PostFan (fan_mode s)) (if net_post net then Some tt else None)
   else ret tt) ;;
  refreshStatus net.

(** The subscriber of the debounced [doThermostatUpdate] stream. *)
Definition thermostatFlush (net : Net) : M unit :=
  catch (pushChanges net) apiError ;;
  modify (set_thermostatUpdateInProgress false).

(** The subscriber of the debounced [doFanUpdate] stream. *)
Definition fanFlush (net : Net) : M unit :=
  catch (pushFanChanges net) apiError ;;
  modify (set_fanUpdateInProgress false).

(** [this.doThermostatUpdate.next()]: the [tap] of the pipeline runs at once. *)
Definition doThermostatUpdate_next : M unit :=
  modify (set_thermostatUpdateInProgress true) ;;
  emit (Next ThermostatChannel).

(** [this.doFanUpdate.next()]: the [tap] exists only if the fan pipeline was subscribed. *)
Definition doFanUpdate_next : M unit :=
  s <- get ;;
  (if fanPipeline s then modify (set_fanUpdateInProgress true) else ret tt) ;;
  emit (Next FanChannel).

(** [setTargetHeatingCoolingState(value, callback)] *)
Definition setTargetHeatingCoolingState (value : THCS) : M unit :=
  modify (set_TargetHeatingCoolingState value) ;;
  s <- get ;;
  modify (set_TargetTemperature
            (if THCS_eqb (TargetHeatingCoolingState s) HEAT
             then toCelsius (TemperatureDisplayUnits s) (heatSetpoint (device s))
             else toCelsius (TemperatureDisplayUnits s) (coolSetpoint (device s)))) ;;
  s <- get ;;
  emit (Publish C_TargetTemperature (VQ (TargetTemperature s))) ;;
  doThermostatUpdate_next ;;
  emit Callback_null.

(** [setHeatingThresholdTemperature(value, callback)] *)
Definition setHeatingThresholdTemperature (value : Q) : M unit :=
  modify (set_HeatingThresholdTemperature value) ;;
  doThermostatUpdate_next ;;
  emit Callback_null.

(** [setCoolingThresholdTemperature(value, callback)] *)
Definition setCoolingThresholdTemperature (value : Q) : M unit :=
  modify (set_CoolingThresholdTemperature value) ;;
  doThermostatUpdate_next ;;
  emit Callback_null.

(** [setTargetTemperature(value, callback)] *)
Definition setTargetTemperature (value : Q) : M unit :=
  modify (set_TargetTemperature value) ;;
  doThermostatUpdate_next ;;
  emit Callback_null.

(** [setActive(value, callback)] *)
Definition setActive (value : ActiveV) : M unit :=
  modify (set_Active value) ;;
  doFanUpdate_next ;;
  emit Callback_null.

(** [setTargetFanState(value, callback)] *)
Definition setTargetFanState (value : TFS) : M unit :=
  modify (set_TargetFanState value) ;;
  doFanUpdate_next ;;
  emit Callback_null.

End Thermostat.

(** * Statements and proofs *)

(** ** Sample inputs *)

Definition sample_device : Device :=
  mkDevice "Fahrenheit" 70 45 Heat 0 76 "Heat" ["Heat"; "Off"; "Cool"] 0 90 50 90 true.

Definition sample_state : St :=
  mkSt sample_device (Some "On") 0 20 0 OFF 25 19 40 (Some FAHRENHEIT) INACTIVE MANUAL
       false false true.

Definition sample_config : Config := mkConfig false "PermanentHold".

(** ** Derived notions used by the statements *)

(** Whether [this.TemperatureDisplayUnits === CELSIUS]. *)
Definition is_celsius (u : option TDU) : bool :=
  match u with Some CELSIUS => true | _ => false end.

(** The display unit [parseStatus] sets from [device.units]. *)
Definition parsedUnits (d : Device) (u : option TDU) : option TDU :=
  let u := if String.eqb (units d) "Fahrenheit" then Some FAHRENHEIT else u in
  if String.eqb (units d) "Celsius" then Some CELSIUS else u.

(** The characteristics the accessory owns. *)
Definition owned_chars (cfg : Config) (s : St) : list Char :=
  (thermostat_chars ++ (if fanEnabled cfg s then fan_chars else []))%list.

Definition error_broadcast (cfg : Config) (s : St) : list Event :=
  map (fun c => Publish c VErr) (owned_chars cfg s).

(** Following the spec: the write payload chosen by target state, each
    setpoint converted to the remote unit. *)
Definition spec_payload (cfg : Config) (s : St) (p : Payload) : Prop :=
  let u := TemperatureDisplayUnits s in
  p_mode p = honeywellMode_at (TargetHeatingCoolingState s) /\
  p_thermostatSetpointStatus p = thermostatSetpointStatus cfg /\
  match TargetHeatingCoolingState s with
  | HEAT => p_heatSetpoint p = toFahrenheit u (TargetTemperature s) /\
            p_coolSetpoint p = toFahrenheit u (CoolingThresholdTemperature s)
  | COOL => p_coolSetpoint p = toFahrenheit u (TargetTemperature s) /\
            p_heatSetpoint p = toFahrenheit u (HeatingThresholdTemperature s)
  | AUTO | OFF => p_heatSetpoint p = toFahrenheit u (HeatingThresholdTemperature s) /\
                  p_coolSetpoint p = toFahrenheit u (CoolingThresholdTemperature s)
  end.

(** Following the spec: some state differs from the snapshot, in the
    normalized unit. *)
Definition spec_differs (s : St) : Prop :=
  let u := TemperatureDisplayUnits s in
  let d := device s in
  ~ HeatingThresholdTemperature s == toCelsius u (heatSetpoint d) \/
  ~ CoolingThresholdTemperature s == toCelsius u (coolSetpoint d) \/
  TargetHeatingCoolingState s <> modes (cv_mode d).

(** ** Logging of [DeviceBase] *)

(** [String.prototype.includes]: [sub] occurs in [s]. *)
Fixpoint str_includes (s sub : string) : bool :=
  match s with
  | EmptyString => String.prefix sub s
  | String _ s' => String.prefix sub s || str_includes s' sub
  end.



(** [enablingDeviceLogging()] *)
Definition enablingDeviceLogging (deviceLogging : string) : bool :=
  str_includes deviceLogging "debug" || String.eqb deviceLogging "standard".

Inductive Level := L_info | L_warn | L_error | L_debug.

(** The platform log call a logging method makes: its level and whether
    the message carries the ['[DEBUG]'] prefix; [None] when it logs nothing. *)
Definition LogCall : Type := (Level * bool)%type.

Definition infoLog (deviceLogging : string) : option LogCall :=
  if enablingDeviceLogging deviceLogging then Some (L_info, false) else None.

Definition warnLog (deviceLogging : string) : option LogCall :=
  if enablingDeviceLogging deviceLogging then Some (L_warn, false) else None.

Definition debugWarnLog (deviceLogging : string) : option LogCall :=
  if enablingDeviceLogging deviceLogging then
    if str_includes deviceLogging "debug" then Some (L_warn, true) else None
  else None.

Definition errorLog (deviceLogging : string) : option LogCall :=
  if enablingDeviceLogging deviceLogging then Some (L_error, false) else None.

Definition debugErrorLog (deviceLogging : string) : option LogCall :=
  if enablingDeviceLogging deviceLogging then
    if str_includes deviceLogging "debug" then Some (L_error, true) else None
  else None.

Definition debugLog (deviceLogging : string) : option LogCall :=
  if enablingDeviceLogging deviceLogging then
    if String.eqb deviceLogging "debug" then Some (L_info, true) else Some (L_debug, false)
  else None.

(** ** Scheduling of refreshes and flushes *)

(** rxjs [skipWhile]: drops values while the predicate holds, then passes
    every later value. *)
Fixpoint skipWhile {A : Type} (p : A -> bool) (l : list A) : list A :=
  match l with
  | [] => []
  | x :: xs => if p x then skipWhile p xs else l
  end.

(** [interval(refreshRate * 1000).pipe(skipWhile(() => this.thermostatUpdateInProgress))]:
    given the accessory's state at each tick, the ticks on which
    [refreshStatus] runs. *)
Definition refreshTicks (ticks : list St) : list St :=
  skipWhile thermostatUpdateInProgress ticks.

(** rxjs [debounceTime(dueTime)]: given the (increasing) times of the
    [next()] calls, the times the subscriber runs; a call is dropped when
    the next one comes before its due time. *)
Fixpoint debounce (dueTime : Z) (ts : list Z) : list Z :=
  match ts with
  | [] => []
  | t :: rest =>
      match rest with
      | [] => [(t + dueTime)%Z]
      | t' :: _ =>
          if Z.ltb t' (t + dueTime) then debounce dueTime rest
          else (t + dueTime)%Z :: debounce dueTime rest
      end
  end.

(** Every call comes before the due time of the previous one. *)
Fixpoint burst (dueTime : Z) (ts : list Z) : bool :=
  match ts with
  | t :: ((t' :: _) as rest) => Z.ltb t' (t + dueTime) && burst dueTime rest
  | _ => true
  end.

(** ** Further derived notions *)

(** The string value of a Honeywell mode. *)
Definition hmode_string (m : HMode) : string :=
  match m with Off => "Off" | Heat => "Heat" | Cool => "Cool" | Auto => "Auto" end.

(** What [updateHomeKitCharacteristics] publishes in state [s]. *)
Definition snapshot_publish (cfg : Config) (s : St) : list Event :=
  map (fun c => Publish c (value_of s c)) (owned_chars cfg s).

(** ** Unit translation *)

(** Division by a literal as multiplication by its inverse, for [lra]. *)
Lemma Qdiv_pos_lit (x : Q) (p : positive) : x / (Z.pos p # 1) = x * (1 # p).
Proof. reflexivity. Qed.

Ltac qdiv := rewrite ?Qdiv_pos_lit in *.

Lemma Math_round_bounds (x : Q) :
  x - (1 # 2) < inject_Z (Math_round x) <= x + (1 # 2).
Proof.
  unfold Math_round.
  pose proof (Qfloor_le (x + (1 # 2))) as Hle.
  pose proof (Qlt_floor (x + (1 # 2))) as Hlt.
  rewrite inject_Z_plus in Hlt.
  change (inject_Z 1) with 1 in Hlt.
  set (z := inject_Z (Qfloor (x + (1 # 2)))) in *.
  split; lra.
Qed.

(** An integer within less than [2] of another is within [1] of it. *)
Lemma Z_close (k n : Z) (a : Q) :
  0 <= a < 2 -> inject_Z k - inject_Z n <= a -> (k - n <= 1)%Z.
Proof.
  intros Ha Hk.
  destruct (Z_le_gt_dec (k - n) 1) as [H | H]; [exact H |].
  exfalso.
  assert (Hz : inject_Z 2 <= inject_Z (k - n)) by (rewrite <- Zle_Qle; lia).
  unfold Z.sub in Hz; rewrite inject_Z_plus, inject_Z_opp in Hz.
  change (inject_Z 2) with 2 in Hz.
  lra.
Qed.

(** [C4] [toCelsius] is the identity in Celsius and otherwise
    [Math.round((5/9)*(value-32)*2)/2], a multiple of one half within a
    quarter degree of the exact conversion; [toFahrenheit] is the identity
    in Celsius and otherwise [Math.round(value*9/5+32)], within half a degree
    of the exact conversion; 32F is 0C, 212F is 100C and 0C is 32F. *)
Theorem unit_translation_spec (u : option TDU) (v : Q) :
  toCelsius u v = (if is_celsius u then v else inject_Z (Math_round ((5 # 9) * (v - 32) * 2)) / 2) /\
  toFahrenheit u v = (if is_celsius u then v else inject_Z (Math_round (v * 9 / 5 + 32))) /\
  (exists n : Z, toCelsius (Some FAHRENHEIT) v == inject_Z n / 2) /\
  - (1 # 4) < toCelsius (Some FAHRENHEIT) v - (5 # 9) * (v - 32) <= 1 # 4 /\
  - (1 # 2) < toFahrenheit (Some FAHRENHEIT) v - (v * 9 / 5 + 32) <= 1 # 2 /\
  toCelsius (Some FAHRENHEIT) 32 == 0 /\
  toCelsius (Some FAHRENHEIT) 212 == 100 /\
  toFahrenheit (Some FAHRENHEIT) 0 == 32.
Proof.
  split; [destruct u as [[|]|]; reflexivity |].
  split; [destruct u as [[|]|]; reflexivity |].
  split; [exists (Math_round ((5 # 9) * (v - 32) * 2)); reflexivity |].
  split.
  { unfold toCelsius.
    pose proof (Math_round_bounds ((5 # 9) * (v - 32) * 2)).
    set (z := inject_Z (Math_round ((5 # 9) * (v - 32) * 2))) in *. qdiv; lra. }
  split.
  { unfold toFahrenheit.
    pose proof (Math_round_bounds (v * 9 / 5 + 32)).
    set (z := inject_Z (Math_round (v * 9 / 5 + 32))) in *. qdiv; lra. }
  repeat split; reflexivity.
Qed.

(** [C5] For a Fahrenheit display unit, converting to Celsius, back to
    Fahrenheit and to Celsius again lands within half a degree of the
    first conversion. *)
Theorem unit_roundtrip_half_degree (v : Q) :
  let c := toCelsius (Some FAHRENHEIT) v in
  Qabs (toCelsius (Some FAHRENHEIT) (toFahrenheit (Some FAHRENHEIT) c) - c) <= 1 # 2.
Proof.
  unfold toCelsius, toFahrenheit; cbv beta iota zeta.
  set (n := Math_round ((5 # 9) * (v - 32) * 2)).
  set (m := Math_round (inject_Z n / 2 * 9 / 5 + 32)).
  set (k := Math_round ((5 # 9) * (inject_Z m - 32) * 2)).
  pose proof (Math_round_bounds (inject_Z n / 2 * 9 / 5 + 32)) as Hm; fold m in Hm.
  pose proof (Math_round_bounds ((5 # 9) * (inject_Z m - 32) * 2)) as Hk; fold k in Hk.
  assert (H1 : (k - n <= 1)%Z) by (apply (Z_close k n (19 # 18)); qdiv; lra).
  assert (H2 : (n - k <= 1)%Z) by (apply (Z_close n k (19 # 18)); qdiv; lra).
  assert (H3 : inject_Z (k - n) <= 1) by (change 1 with (inject_Z 1); rewrite <- Zle_Qle; lia).
  assert (H4 : inject_Z (n - k) <= 1) by (change 1 with (inject_Z 1); rewrite <- Zle_Qle; lia).
  unfold Z.sub in H3, H4; rewrite inject_Z_plus, inject_Z_opp in H3, H4.
  apply (proj2 (Qabs_Qle_condition _ _)). qdiv; lra.
Qed.

(** ** Valid target states *)

(** [C6] [TargetState] lists exactly the allowed modes, in the order
    Cool, Heat, Off, Auto, never the placeholder [4]; for ['Heat','Off']
    it is [HEAT; OFF]. *)
Theorem TargetState_spec (allowed : list string) :
  TargetState allowed =
    map THCS_value (filter (fun m => includes allowed (mode_name m)) [COOL; HEAT; OFF; AUTO]) /\
  ~ In 4%Z (TargetState allowed) /\
  TargetState ["Heat"; "Off"] = [THCS_value HEAT; THCS_value OFF].
Proof.
  unfold TargetState; simpl removelast; simpl filter.
  change (mode_name COOL) with "Cool"; change (mode_name HEAT) with "Heat";
  change (mode_name OFF) with "Off"; change (mode_name AUTO) with "Auto".
  destruct (includes allowed "Cool"), (includes allowed "Heat"),
           (includes allowed "Off"), (includes allowed "Auto");
    repeat split; simpl; try reflexivity; intuition congruence.
Qed.

(** ** Deriving the characteristics from the snapshot *)

(** Case analysis on the innermost tests of a goal, simplifying in between. *)
Ltac split_ifs :=
  repeat (simpl in *;
    match goal with
    | |- context [if ?b then _ else _] =>
        lazymatch b with
        | context [if _ then _ else _] => fail
        | _ => destruct b eqn:?
        end
    | |- context [match ?o with Some _ => _ | None => _ end] =>
        lazymatch o with
        | context [if _ then _ else _] => fail
        | _ => destruct o eqn:?
        end
    end).

Lemma Qlt_bool_spec (x y : Q) : Qlt_bool x y = true <-> x < y.
Proof.
  unfold Qlt_bool; rewrite negb_true_iff.
  split; intro H.
  - apply Qnot_le_lt; intro H'; apply Qle_bool_iff in H'; congruence.
  - destruct (Qle_bool y x) eqn:E; [|reflexivity].
    apply Qle_bool_iff in E; exfalso; apply (Qlt_not_le x y); assumption.
Qed.

(** The fan block changes no thermostat characteristic. *)
Lemma parseFanState_HeatingThreshold (cfg : Config) (s : St) :
  HeatingThresholdTemperature (parseFanState cfg s) = HeatingThresholdTemperature s.
Proof. unfold parseFanState; split_ifs; reflexivity. Qed.

Lemma parseFanState_CoolingThreshold (cfg : Config) (s : St) :
  CoolingThresholdTemperature (parseFanState cfg s) = CoolingThresholdTemperature s.
Proof. unfold parseFanState; split_ifs; reflexivity. Qed.

Lemma parseFanState_TargetTemperature (cfg : Config) (s : St) :
  TargetTemperature (parseFanState cfg s) = TargetTemperature s.
Proof. unfold parseFanState; split_ifs; reflexivity. Qed.

Lemma parseFanState_TargetHeatingCoolingState (cfg : Config) (s : St) :
  TargetHeatingCoolingState (parseFanState cfg s) = TargetHeatingCoolingState s.
Proof. unfold parseFanState; split_ifs; reflexivity. Qed.

Create Rewrite HintDb fanstep.
#[local] Hint Rewrite parseFanState_HeatingThreshold parseFanState_CoolingThreshold
  parseFanState_TargetTemperature parseFanState_TargetHeatingCoolingState : fanstep.

Lemma parseStatus_HeatingThreshold (cfg : Config) (s : St) :
  HeatingThresholdTemperature (parseStatus cfg s) =
    if Qlt_bool 0 (heatSetpoint (device s))
    then toCelsius (parsedUnits (device s) (TemperatureDisplayUnits s)) (heatSetpoint (device s))
    else HeatingThresholdTemperature s.
Proof.
  unfold parseStatus, parsedUnits; cbv zeta; autorewrite with fanstep.
  split_ifs; reflexivity.
Qed.

Lemma parseStatus_CoolingThreshold (cfg : Config) (s : St) :
  CoolingThresholdTemperature (parseStatus cfg s) =
    if Qlt_bool 0 (coolSetpoint (device s))
    then toCelsius (parsedUnits (device s) (TemperatureDisplayUnits s)) (coolSetpoint (device s))
    else CoolingThresholdTemperature s.
Proof.
  unfold parseStatus, parsedUnits; cbv zeta; autorewrite with fanstep.
  split_ifs; reflexivity.
Qed.

Lemma parseStatus_TargetTemperature (cfg : Config) (s : St) :
  let d := device s in
  let u := parsedUnits d (TemperatureDisplayUnits s) in
  TargetTemperature (parseStatus cfg s) =
    if THCS_eqb (modes (cv_mode d)) HEAT
    then if Qlt_bool 0 (heatSetpoint d) || truthy (minHeatSetpoint d)
         then toCelsius u (heatSetpoint d) else TargetTemperature s
    else if Qlt_bool 0 (coolSetpoint d) || truthy (minCoolSetpoint d)
         then toCelsius u (coolSetpoint d) else TargetTemperature s.
Proof.
  unfold parseStatus, parsedUnits; cbv zeta; autorewrite with fanstep.
  split_ifs; reflexivity.
Qed.

Lemma parseStatus_TargetHeatingCoolingState (cfg : Config) (s : St) :
  TargetHeatingCoolingState (parseStatus cfg s) = modes (cv_mode (device s)).
Proof.
  unfold parseStatus, parsedUnits; cbv zeta; autorewrite with fanstep.
  split_ifs; reflexivity.
Qed.

Lemma Qlt_bool_false (x y : Q) : Qlt_bool x y = false <-> y <= x.
Proof.
  unfold Qlt_bool; rewrite negb_false_iff; apply Qle_bool_iff.
Qed.

Lemma toCelsius_Qeq (u : option TDU) (x y : Q) : x == y -> toCelsius u x == toCelsius u y.
Proof.
  intro H; destruct u as [[|]|]; simpl; [exact H | |]; unfold Math_round; rewrite H; reflexivity.
Qed.

(** [C7] [parseStatus] overwrites the heating (cooling) threshold with the
    normalized remote heat (cool) setpoint when that setpoint is strictly
    positive, and leaves it unchanged when the setpoint is zero or below. *)
Theorem parseStatus_threshold_guard (cfg : Config) (s : St) :
  let d := device s in
  let u := parsedUnits d (TemperatureDisplayUnits s) in
  (0 < heatSetpoint d -> HeatingThresholdTemperature (parseStatus cfg s) = toCelsius u (heatSetpoint d)) /\
  (heatSetpoint d <= 0 -> HeatingThresholdTemperature (parseStatus cfg s) = HeatingThresholdTemperature s) /\
  (0 < coolSetpoint d -> CoolingThresholdTemperature (parseStatus cfg s) = toCelsius u (coolSetpoint d)) /\
  (coolSetpoint d <= 0 -> CoolingThresholdTemperature (parseStatus cfg s) = CoolingThresholdTemperature s).
Proof.
  cbv zeta; rewrite parseStatus_HeatingThreshold, parseStatus_CoolingThreshold.
  repeat split; intro H;
    [ apply Qlt_bool_spec in H | apply Qlt_bool_false in H
    | apply Qlt_bool_spec in H | apply Qlt_bool_false in H ];
    rewrite H; reflexivity.
Qed.

(** [C8] After [parseStatus], the target state is [modes[changeableValues.mode]];
    in Heat the target temperature is the normalized heat setpoint when
    [heatSetpoint > 0 || minHeatSetpoint], otherwise it is the normalized
    cool setpoint when [coolSetpoint > 0 || minCoolSetpoint]; when the
    guard fails the previous target temperature is kept. *)
Theorem parseStatus_target_temperature (cfg : Config) (s : St) :
  let d := device s in
  let u := parsedUnits d (TemperatureDisplayUnits s) in
  TargetHeatingCoolingState (parseStatus cfg s) = modes (cv_mode d) /\
  TargetTemperature (parseStatus cfg s) =
    if THCS_eqb (modes (cv_mode d)) HEAT
    then if Qlt_bool 0 (heatSetpoint d) || truthy (minHeatSetpoint d)
         then toCelsius u (heatSetpoint d) else TargetTemperature s
    else if Qlt_bool 0 (coolSetpoint d) || truthy (minCoolSetpoint d)
         then toCelsius u (coolSetpoint d) else TargetTemperature s.
Proof.
  split; [apply parseStatus_TargetHeatingCoolingState | apply parseStatus_TargetTemperature].
Qed.

(** [C8] In Heat, with remote heat setpoint 0 and a zero [minHeatSetpoint],
    [parseStatus] leaves the target temperature at 20 instead of the
    normalized heat setpoint -18. *)
Lemma parseStatus_target_temperature_counterexample :
  let s' := parseStatus sample_config sample_state in
  TargetHeatingCoolingState s' = HEAT /\
  ~ (TargetTemperature s' == toCelsius (TemperatureDisplayUnits s') (heatSetpoint (device sample_state))).
Proof.
  split; [reflexivity |].
  vm_compute; discriminate.
Qed.

(** [C10] Choosing Heat while the remote heat setpoint is 0 sets the target
    temperature to [toCelsius(0)] (0 in Celsius, -18 otherwise), publishes
    it and acknowledges, whatever it was before; a refresh in mode Heat with
    heat setpoint 0 keeps the previous target temperature when
    [minHeatSetpoint] is 0, and also sets [toCelsius(0)] when it is not. *)
Theorem setTargetHeatingCoolingState_heat_zero (cfg : Config) (s : St)
  (Hz : heatSetpoint (device s) == 0) :
  (let '(s', evs, r) := setTargetHeatingCoolingState HEAT s in
   TargetTemperature s' == (if is_celsius (TemperatureDisplayUnits s) then 0 else -18) /\
   evs = [Publish C_TargetTemperature (VQ (TargetTemperature s')); Next ThermostatChannel; Callback_null] /\
   r = Some tt) /\
  (cv_mode (device s) = Heat -> minHeatSetpoint (device s) == 0 ->
   TargetTemperature (parseStatus cfg s) = TargetTemperature s) /\
  (cv_mode (device s) = Heat -> ~ minHeatSetpoint (device s) == 0 ->
   TargetTemperature (parseStatus cfg s) ==
     toCelsius (parsedUnits (device s) (TemperatureDisplayUnits s)) 0).
Proof.
  split; [| split].
  - simpl. split; [| split; reflexivity].
    rewrite (toCelsius_Qeq _ _ _ Hz).
    destruct (TemperatureDisplayUnits s) as [[|]|]; reflexivity.
  - intros Hm Hmin. rewrite parseStatus_TargetTemperature; cbv zeta.
    rewrite Hm; simpl THCS_eqb; cbv iota.
    assert (E1 : Qlt_bool 0 (heatSetpoint (device s)) = false)
      by (apply Qlt_bool_false; rewrite Hz; apply Qle_refl).
    assert (E2 : truthy (minHeatSetpoint (device s)) = false)
      by (unfold truthy; rewrite negb_false_iff; apply Qeq_bool_iff; exact Hmin).
    rewrite E1, E2; reflexivity.
  - intros Hm Hmin. rewrite parseStatus_TargetTemperature; cbv zeta.
    rewrite Hm; simpl THCS_eqb; cbv iota.
    assert (E2 : truthy (minHeatSetpoint (device s)) = true).
    { unfold truthy; rewrite negb_true_iff.
      destruct (Qeq_bool _ _) eqn:E; [apply Qeq_bool_iff in E; contradiction | reflexivity]. }
    rewrite E2, orb_true_r. apply toCelsius_Qeq; exact Hz.
Qed.

(** ** Failure propagation *)

Lemma apiError_eq (cfg : Config) (s : St) :
  apiError cfg s = (s, error_broadcast cfg s, Some tt).
Proof.
  unfold apiError, error_broadcast, owned_chars, bind, get, emit, ret; simpl.
  destruct (fanEnabled cfg s); reflexivity.
Qed.

(** [C2] [apiError] publishes the error on every owned characteristic and
    nothing else; a refresh whose device or fan request rejects renews the
    token and does so; each flush pipeline broadcasts the error exactly when
    its push rejects, and clears its in-progress flag in every case. *)
Theorem error_propagation (cfg : Config) (net : Net) (s : St) :
  apiError cfg s = (s, error_broadcast cfg s, Some tt) /\
  (net_device net = None ->
   refreshStatus cfg net s = (s, GetDevice :: RefreshAccessToken :: error_broadcast cfg s, Some tt)) /\
  (forall d, net_device net = Some d -> fanEnabled cfg (set_device d s) = true -> net_fan net = None ->
   refreshStatus cfg net s =
     (set_device d s, GetDevice :: GetFan :: RefreshAccessToken :: error_broadcast cfg (set_device d s),
      Some tt)) /\
  (let '(s1, e1, r1) := pushChanges cfg net s in
   thermostatFlush cfg net s =
     (set_thermostatUpdateInProgress false s1,
      (e1 ++ match r1 with Some _ => [] | None => error_broadcast cfg s1 end)%list, Some tt)) /\
  (let '(s1, e1, r1) := pushFanChanges cfg net s in
   fanFlush cfg net s =
     (set_fanUpdateInProgress false s1,
      (e1 ++ match r1 with Some _ => [] | None => error_broadcast cfg s1 end)%list, Some tt)).
Proof.
  split; [apply apiError_eq |].
  split.
  { intro H. unfold refreshStatus, catch, bind, await, emit, ret, throw; simpl.
    rewrite H; simpl. rewrite apiError_eq. reflexivity. }
  split.
  { intros d Hd Hf Hn.
    unfold refreshStatus, catch, bind, await, emit, modify, get, ret, throw; simpl.
    rewrite Hd; simpl. rewrite Hf, Hn; simpl.
    rewrite apiError_eq. reflexivity. }
  split.
  - unfold thermostatFlush, catch, bind, modify.
    destruct (pushChanges cfg net s) as [[s1 e1] [[]|]];
      [rewrite app_nil_r | rewrite apiError_eq, app_nil_r]; reflexivity.
  - unfold fanFlush, catch, bind, modify.
    destruct (pushFanChanges cfg net s) as [[s1 e1] [[]|]];
      [rewrite app_nil_r | rewrite apiError_eq, app_nil_r]; reflexivity.
Qed.

(** ** Host-originated changes *)

(** [C3] Each set handler assigns its own field (setting the target state
    also recomputes and publishes the target temperature from the remote
    setpoint of the chosen mode), emits on its pipeline's subject (whose tap
    raises the in-progress flag) and calls back with [null]; none of them
    makes a request. *)
Theorem set_handlers_spec (s : St) (m : THCS) (q : Q) (a : ActiveV) (f : TFS) :
  setTargetHeatingCoolingState m s =
    (let t := if THCS_eqb m HEAT then toCelsius (TemperatureDisplayUnits s) (heatSetpoint (device s))
              else toCelsius (TemperatureDisplayUnits s) (coolSetpoint (device s)) in
     (set_thermostatUpdateInProgress true (set_TargetTemperature t (set_TargetHeatingCoolingState m s)),
      [Publish C_TargetTemperature (VQ t); Next ThermostatChannel; Callback_null], Some tt)) /\
  setHeatingThresholdTemperature q s =
    (set_thermostatUpdateInProgress true (set_HeatingThresholdTemperature q s),
     [Next ThermostatChannel; Callback_null], Some tt) /\
  setCoolingThresholdTemperature q s =
    (set_thermostatUpdateInProgress true (set_CoolingThresholdTemperature q s),
     [Next ThermostatChannel; Callback_null], Some tt) /\
  setTargetTemperature q s =
    (set_thermostatUpdateInProgress true (set_TargetTemperature q s),
     [Next ThermostatChannel; Callback_null], Some tt) /\
  setActive a s =
    (if fanPipeline s then set_fanUpdateInProgress true (set_Active a s) else set_Active a s,
     [Next FanChannel; Callback_null], Some tt) /\
  setTargetFanState f s =
    (if fanPipeline s then set_fanUpdateInProgress true (set_TargetFanState f s) else set_TargetFanState f s,
     [Next FanChannel; Callback_null], Some tt).
Proof.
  split; [reflexivity |]. split; [reflexivity |].
  split; [reflexivity |]. split; [reflexivity |]. split.
  - unfold setActive, doFanUpdate_next, bind, modify, get, emit; simpl.
    destruct (fanPipeline s); reflexivity.
  - unfold setTargetFanState, doFanUpdate_next, bind, modify, get, emit; simpl.
    destruct (fanPipeline s); reflexivity.
Qed.

(** ** Flushing the thermostat changes *)

Lemma THCS_eqb_spec (a b : THCS) : THCS_eqb a b = true <-> a = b.
Proof. destruct a, b; cbv; split; intro H; congruence. Qed.

Lemma thermostat_differs_spec (s : St) : thermostat_differs s = true <-> spec_differs s.
Proof.
  unfold thermostat_differs, spec_differs.
  rewrite !orb_true_iff, !negb_true_iff.
  assert (Hq : forall x y, Qeq_bool x y = false <-> ~ x == y).
  { intros x y; rewrite <- Qeq_bool_iff; destruct (Qeq_bool x y); intuition congruence. }
  assert (Hm : forall a b, THCS_eqb a b = false <-> a <> b).
  { intros a b; rewrite <- THCS_eqb_spec; destruct (THCS_eqb a b); intuition congruence. }
  rewrite !Hq, !Hm; tauto.
Qed.

Lemma thermostat_payload_spec (cfg : Config) (s : St) :
  spec_payload cfg s (thermostat_payload cfg s).
Proof.
  unfold spec_payload, thermostat_payload.
  destruct (TargetHeatingCoolingState s); simpl; repeat split.
Qed.

(** A refresh makes no thermostat write. *)
Lemma refreshStatus_no_post (cfg : Config) (net : Net) (s : St) (p : Payload) :
  ~ In (PostThermostat p) (snd (fst (refreshStatus cfg net s))).
Proof.
  unfold refreshStatus, catch, bind, await, emit, modify, get, ret, throw; simpl.
  destruct (net_device net) as [d|]; simpl.
  - destruct (fanEnabled cfg (set_device d s)); simpl;
      [destruct (net_fan net); simpl |];
      unfold updateHomeKitCharacteristics, apiError, bind, get, emit, ret; simpl;
      match goal with |- context [if ?b then _ else _] => destruct b end;
      simpl; intuition discriminate.
  - unfold apiError, bind, get, emit, ret; simpl.
    destruct (fanEnabled cfg s); simpl; intuition discriminate.
Qed.

(** [C1] [pushChanges] issues a thermostat write exactly when the heating
    threshold, the cooling threshold or the target state differs from the
    snapshot (in the normalized unit); the payload takes its setpoints by
    target state, converted to the remote unit; after a successful write the
    refresh path runs, and without a difference nothing happens. *)
Theorem pushChanges_spec (cfg : Config) (net : Net) (s : St) :
  let '(s', evs, r) := pushChanges cfg net s in
  ((exists p, In (PostThermostat p) evs) <-> spec_differs s) /\
  (forall p, In (PostThermostat p) evs -> spec_payload cfg s p) /\
  (spec_differs s -> net_post net = true ->
   exists rest, evs = PostThermostat (thermostat_payload cfg s) :: rest /\
                (s', rest, r) = refreshStatus cfg net s) /\
  (~ spec_differs s -> (s', evs, r) = (s, [], Some tt)).
Proof.
  assert (Hnp := refreshStatus_no_post cfg net s).
  unfold pushChanges, bind, get, await, emit, ret, throw.
  destruct (thermostat_differs s) eqn:E.
  - apply thermostat_differs_spec in E.
    destruct (net_post net) eqn:P.
    + simpl. destruct (refreshStatus cfg net s) as [[s' e] r] eqn:R; simpl in Hnp.
      split; [split; [intros _; exact E | intros _; eexists; left; reflexivity] |].
      split; [| split].
      * intros p [Hp | Hp]; [injection Hp as <-; apply thermostat_payload_spec |].
        exfalso; exact (Hnp p Hp).
      * intros _ _; exists e; split; reflexivity.
      * intro H; contradiction.
    + simpl.
      split; [split; [intros _; exact E | intros _; eexists; left; reflexivity] |].
      split; [| split].
      * intros p [Hp | []]; injection Hp as <-; apply thermostat_payload_spec.
      * intros _ P'; discriminate P'.
      * intro H; contradiction.
  - assert (N : ~ spec_differs s) by (rewrite <- thermostat_differs_spec; congruence).
    simpl. split; [split; [intros [p []] | intro H; contradiction] |].
    split; [intros p [] |]. split; [intro H; contradiction | reflexivity].
Qed.

(** ** Flushing the fan changes *)

(** [C9] The fan mode is Auto for target state Auto, On for Manual and
    active, Circulate for Manual and inactive, and does not depend on the
    last fetched fan resource; when the fan capability is on and not hidden
    the flush always writes it (no diff check) and, once the write succeeds,
    re-runs the refresh path; a rejected write ends the flush before the
    refresh; with the fan off or hidden the flush only refreshes. *)
Theorem pushFanChanges_spec (cfg : Config) (net : Net) (s : St) :
  fan_mode s = match TargetFanState s, Active s with
               | FAN_AUTO, _ => "Auto"
               | MANUAL, ACTIVE => "On"
               | MANUAL, INACTIVE => "Circulate"
               end /\
  (forall f, fan_mode (set_deviceFan f s) = fan_mode s) /\
  pushFanChanges cfg net s =
    (if fanEnabled cfg s then
       if net_post net then
         let '(s', e, r) := refreshStatus cfg net s in (s', PostFan (fan_mode s) :: e, r)
       else (s, [PostFan (fan_mode s)], None)
     else refreshStatus cfg net s).
Proof.
  split; [unfold fan_mode; destruct (TargetFanState s), (Active s); reflexivity |].
  split; [reflexivity |].
  unfold pushFanChanges, bind, get, await, emit, ret, throw; simpl.
  destruct (fanEnabled cfg s); [destruct (net_post net) |]; simpl;
    destruct (refreshStatus cfg net s) as [[s' e] r]; reflexivity.
Qed.

(** [C9] A fan flush whose write rejects does not re-run the refresh path:
    no device request follows the write. *)
Lemma pushFanChanges_counterexample :
  let '(_, evs, r) := pushFanChanges sample_config (mkNet (Some sample_device) (Some "On") false) sample_state in
  evs = [PostFan "Circulate"] /\ r = None /\ ~ In GetDevice evs.
Proof.
  vm_compute. split; [reflexivity | split; [reflexivity |]].
  intros [H | []]; discriminate H.
Qed.

(** [C10] witness: the sample state has heat setpoint 0, mode Heat and a zero
    [minHeatSetpoint], and a refresh there keeps the target temperature. *)
Lemma setTargetHeatingCoolingState_heat_zero_witness :
  heatSetpoint (device sample_state) == 0 /\
  TargetTemperature (parseStatus sample_config sample_state) = TargetTemperature sample_state.
Proof.
  assert (Hz : heatSetpoint (device sample_state) == 0) by reflexivity.
  split; [exact Hz |].
  destruct (setTargetHeatingCoolingState_heat_zero sample_config sample_state Hz) as (_ & H & _).
  apply H; reflexivity.
Defined.

(** [C10] In Fahrenheit, choosing Heat with heat setpoint 0 sets the target
    temperature to -18, not -17.5; and with a nonzero [minHeatSetpoint] a
    refresh in that state does not keep the previous target temperature. *)
Lemma setTargetHeatingCoolingState_heat_zero_counterexample :
  (let '(s', _, _) := setTargetHeatingCoolingState HEAT sample_state in
   TargetTemperature s' == -18 /\ ~ TargetTemperature s' == -35 # 2) /\
  (let s2 := set_device (mkDevice "Fahrenheit" 70 45 Heat 0 76 "Heat" ["Heat"; "Off"; "Cool"]
                                  40 90 50 90 true) sample_state in
   ~ TargetTemperature (parseStatus sample_config s2) == TargetTemperature s2).
Proof.
  vm_compute. split; [split; [reflexivity | discriminate] | discriminate].
Qed.

(** * Further properties of the code *)

(** ** Logging *)


(** A logging setting that neither contains ['debug'] nor is ['standard']
    silences every logging method. *)
Theorem logging_silenced (l : string)
  (Hd : str_includes l "debug" = false) (Hs : l <> "standard") :
  infoLog l = None /\ warnLog l = None /\ errorLog l = None /\
  debugLog l = None /\ debugWarnLog l = None /\ debugErrorLog l = None.
Proof.
  assert (E : enablingDeviceLogging l = false).
  { unfold enablingDeviceLogging; rewrite Hd; simpl.
    apply String.eqb_neq; exact Hs. }
  unfold infoLog, warnLog, errorLog, debugLog, debugWarnLog, debugErrorLog.
  rewrite E; repeat split.
Qed.

(** [debugWarnLog] and [debugErrorLog] log (with the prefix) exactly when
    the setting contains ['debug']; [debugLog] logs at info level only for
    the setting ['debug'] itself. *)
Theorem debug_log_routing (l : string) :
  debugWarnLog l = (if str_includes l "debug" then Some (L_warn, true) else None) /\
  debugErrorLog l = (if str_includes l "debug" then Some (L_error, true) else None) /\
  (debugLog l = Some (L_info, true) <-> l = "debug").
Proof.
  unfold debugWarnLog, debugErrorLog, debugLog, enablingDeviceLogging.
  split; [| split].
  - destruct (str_includes l "debug"); simpl; [reflexivity |].
    destruct (String.eqb l "standard"); reflexivity.
  - destruct (str_includes l "debug"); simpl; [reflexivity |].
    destruct (String.eqb l "standard"); reflexivity.
  - split.
    + destruct (str_includes l "debug" || String.eqb l "standard"); [| discriminate].
      destruct (String.eqb l "debug") eqn:E; [| discriminate].
      intros _; apply String.eqb_eq; exact E.
    + intros ->; reflexivity.
Qed.

(** ** Scheduling *)

(** The refresh interval skips ticks only while a thermostat push is in
    progress at the start: from the first tick that finds no push in
    progress on, every tick refreshes, also those that find one. *)
Theorem refreshTicks_after_first (l1 l2 : list St)
  (H1 : forallb thermostatUpdateInProgress l1 = true)
  (H2 : match l2 with [] => True | s :: _ => thermostatUpdateInProgress s = false end) :
  refreshTicks (l1 ++ l2) = l2.
Proof.
  unfold refreshTicks.
  induction l1 as [| s l1 IH]; simpl in *.
  - destruct l2 as [| s l2]; [reflexivity |]; simpl; rewrite H2; reflexivity.
  - apply andb_true_iff in H1 as [-> H1]; apply IH; exact H1.
Qed.

Lemma debounce_burst_aux (d : Z) (t : Z) (ts : list Z) :
  burst d (t :: ts) = true -> debounce d (t :: ts) = [(last (t :: ts) 0 + d)%Z].
Proof.
  revert t; induction ts as [| t' ts IH]; intros t H; [reflexivity |].
  simpl in H; apply andb_true_iff in H as [Hlt H].
  change (debounce d (t :: t' :: ts)) with
    (if Z.ltb t' (t + d) then debounce d (t' :: ts) else (t + d)%Z :: debounce d (t' :: ts)).
  rewrite Hlt, IH by exact H. reflexivity.
Qed.

(** A burst of pipeline emissions, each before the due time of the previous
    one, makes the debounced subscriber run once, 100 ms after the last. *)
Theorem debounce_burst_single (t : Z) (ts : list Z) (H : burst 100 (t :: ts) = true) :
  debounce 100 (t :: ts) = [(last (t :: ts) 0 + 100)%Z].
Proof. apply debounce_burst_aux; exact H. Qed.

(** ** The mode tables *)

(** [honeywellMode] inverts [modes]: writing back an unchanged target state
    sends the remote mode's own name, and [modes] reaches every HomeKit mode
    exactly once. *)
Theorem mode_tables_roundtrip :
  (forall m, honeywellMode_at (modes m) = hmode_string m) /\
  (forall t, exists m, modes m = t /\ hmode_string m = honeywellMode_at t) /\
  (forall m1 m2, modes m1 = modes m2 -> m1 = m2).
Proof.
  split; [intros []; reflexivity |].
  split.
  - intros []; [exists Off | exists Heat | exists Cool | exists Auto]; split; reflexivity.
  - intros [] []; simpl; congruence.
Qed.

(** ** Unit conversions on whole degrees *)

Lemma Math_round_unique (x : Q) (z : Z) :
  inject_Z z - (1 # 2) <= x -> x < inject_Z z + (1 # 2) -> Math_round x = z.
Proof.
  intros Hl Hu.
  pose proof (Math_round_bounds x) as [Hr1 Hr2].
  set (r := Math_round x) in *.
  assert (A : inject_Z r < inject_Z (z + 1)) by (rewrite inject_Z_plus; change (inject_Z 1) with 1; lra).
  assert (B : inject_Z z < inject_Z (r + 1)) by (rewrite inject_Z_plus; change (inject_Z 1) with 1; lra).
  rewrite <- Zlt_Qlt in A, B; lia.
Qed.

Lemma Math_round_mono (x y : Q) : x <= y -> (Math_round x <= Math_round y)%Z.
Proof.
  intro H; unfold Math_round; apply Qfloor_resp_le; lra.
Qed.

Lemma toFahrenheit_toCelsius_whole (u : option TDU) (v : Z) :
  toFahrenheit u (toCelsius u (inject_Z v)) = inject_Z v.
Proof.
  destruct u as [[|]|]; unfold toCelsius, toFahrenheit; try reflexivity;
  set (n := Math_round ((5 # 9) * (inject_Z v - 32) * 2));
  pose proof (Math_round_bounds ((5 # 9) * (inject_Z v - 32) * 2)) as Hn; fold n in Hn;
  rewrite (Math_round_unique _ v); try reflexivity; qdiv; lra.
Qed.

(** A whole Fahrenheit reading converted to Celsius (to the half degree)
    and back to Fahrenheit is the same reading: a Fahrenheit setpoint
    that HomeKit leaves unchanged is written back unchanged. *)
Theorem unit_roundtrip_whole_fahrenheit (u : option TDU) (v : Z) :
  toFahrenheit u (toCelsius u (inject_Z v)) = inject_Z v.
Proof. apply toFahrenheit_toCelsius_whole. Qed.

(** Both conversions are monotone: they never swap the order of two
    temperatures (so a heating threshold below a cooling threshold stays
    at or below it). *)
Theorem unit_conversions_monotone (u : option TDU) (x y : Q) (H : x <= y) :
  toCelsius u x <= toCelsius u y /\ toFahrenheit u x <= toFahrenheit u y.
Proof.
  assert (C : inject_Z (Math_round ((5 # 9) * (x - 32) * 2)) / 2 <=
              inject_Z (Math_round ((5 # 9) * (y - 32) * 2)) / 2).
  { unfold Qdiv; apply Qmult_le_compat_r; [| apply Qinv_le_0_compat; lra].
    rewrite <- Zle_Qle; apply Math_round_mono; lra. }
  assert (F : inject_Z (Math_round (x * 9 / 5 + 32)) <= inject_Z (Math_round (y * 9 / 5 + 32))).
  { rewrite <- Zle_Qle; apply Math_round_mono; qdiv; lra. }
  destruct u as [[|]|]; unfold toCelsius, toFahrenheit; split; assumption.
Qed.

(** ** What a refresh reads *)

Lemma parseFanState_fields (cfg : Config) (s : St) :
  device (parseFanState cfg s) = device s /\
  deviceFan (parseFanState cfg s) = deviceFan s /\
  TemperatureDisplayUnits (parseFanState cfg s) = TemperatureDisplayUnits s /\
  CurrentTemperature (parseFanState cfg s) = CurrentTemperature s /\
  CurrentRelativeHumidity (parseFanState cfg s) = CurrentRelativeHumidity s /\
  CurrentHeatingCoolingState (parseFanState cfg s) = CurrentHeatingCoolingState s /\
  thermostatUpdateInProgress (parseFanState cfg s) = thermostatUpdateInProgress s /\
  fanUpdateInProgress (parseFanState cfg s) = fanUpdateInProgress s /\
  fanPipeline (parseFanState cfg s) = fanPipeline s.
Proof. unfold parseFanState; split_ifs; repeat split; simpl; congruence. Qed.

Lemma parseStatus_fields (cfg : Config) (s : St) :
  let d := device s in
  device (parseStatus cfg s) = d /\
  deviceFan (parseStatus cfg s) = deviceFan s /\
  TemperatureDisplayUnits (parseStatus cfg s) = parsedUnits d (TemperatureDisplayUnits s) /\
  CurrentTemperature (parseStatus cfg s) =
    toCelsius (parsedUnits d (TemperatureDisplayUnits s)) (indoorTemperature d) /\
  CurrentRelativeHumidity (parseStatus cfg s) = indoorHumidity d /\
  CurrentHeatingCoolingState (parseStatus cfg s) =
    (if String.eqb (operationStatus_mode d) "Heat" then 1%Z
     else if String.eqb (operationStatus_mode d) "Cool" then 2%Z else 0%Z) /\
  thermostatUpdateInProgress (parseStatus cfg s) = thermostatUpdateInProgress s /\
  fanUpdateInProgress (parseStatus cfg s) = fanUpdateInProgress s /\
  fanPipeline (parseStatus cfg s) = fanPipeline s.
Proof.
  unfold parseStatus at 1 2 3 4 5 6 7 8 9; cbv zeta.
  set (t := if THCS_eqb _ HEAT then _ else _).
  destruct (parseFanState_fields cfg t) as (-> & -> & -> & -> & -> & -> & -> & -> & ->).
  subst t; unfold parsedUnits; split_ifs; repeat split.
Qed.


(** [parseStatus] ends in the fan block, run on a state with the same
    device snapshot and the same fan characteristics. *)
Lemma parseStatus_pre (cfg : Config) (s : St) :
  exists t, parseStatus cfg s = parseFanState cfg t /\ device t = device s /\
    deviceFan t = deviceFan s /\ Active t = Active s /\ TargetFanState t = TargetFanState s.
Proof.
  unfold parseStatus; cbv zeta.
  eexists; split; [reflexivity |].
  split_ifs; repeat split.
Qed.

(** A refresh reads the remote fan mode into the fan characteristics only
    when the fan is enabled and the mode is ['Auto'], ['On'] or
    ['Circulate'], and then the fan mode a fan flush would send is that same
    mode; when the fan is disabled, the mode is missing or any other string,
    the fan characteristics keep their values. *)
Theorem parseStatus_fan_roundtrip (cfg : Config) (s : St) :
  (forall fm, fanEnabled cfg s = true -> deviceFan s = Some fm ->
   In fm ["Auto"; "On"; "Circulate"] -> fan_mode (parseStatus cfg s) = fm) /\
  (fanEnabled cfg s = false \/ deviceFan s = None \/
   (exists fm, deviceFan s = Some fm /\ ~ In fm ["Auto"; "On"; "Circulate"]) ->
   Active (parseStatus cfg s) = Active s /\ TargetFanState (parseStatus cfg s) = TargetFanState s).
Proof.
  destruct (parseStatus_pre cfg s) as (t & -> & Hd & Hf & Ha & Ht).
  assert (He : fanEnabled cfg t = fanEnabled cfg s) by (unfold fanEnabled; rewrite Hd; reflexivity).
  unfold parseFanState; rewrite He, Hf.
  split.
  - intros fm Hen Hfm Hin; rewrite Hen, Hfm.
    destruct Hin as [<- | [<- | [<- | []]]]; reflexivity.
  - intros [Hen | [Hn | (fm & Hfm & Hin)]].
    + rewrite Hen; split; assumption.
    + rewrite Hn; destruct (fanEnabled cfg s); split; assumption.
    + rewrite Hfm; destruct (fanEnabled cfg s); [| split; assumption].
      destruct (String.eqb fm "Auto") eqn:E1;
        [apply String.eqb_eq in E1; subst; exfalso; apply Hin; simpl; tauto |].
      destruct (String.eqb fm "On") eqn:E2;
        [apply String.eqb_eq in E2; subst; exfalso; apply Hin; simpl; tauto |].
      destruct (String.eqb fm "Circulate") eqn:E3;
        [apply String.eqb_eq in E3; subst; exfalso; apply Hin; simpl; tauto |].
      split; assumption.
Qed.

(** After a refresh, [pushChanges] finds a difference exactly when a remote
    setpoint is zero or below (so the refresh kept the threshold) and the
    kept threshold differs from that setpoint in the new unit; with
    positive setpoints a refreshed state is in sync. *)
Theorem parseStatus_synced (cfg : Config) (s : St) :
  let d := device s in
  let u := parsedUnits d (TemperatureDisplayUnits s) in
  thermostat_differs (parseStatus cfg s) = true <->
    (heatSetpoint d <= 0 /\ ~ HeatingThresholdTemperature s == toCelsius u (heatSetpoint d)) \/
    (coolSetpoint d <= 0 /\ ~ CoolingThresholdTemperature s == toCelsius u (coolSetpoint d)).
Proof.
  cbv zeta.
  destruct (parseStatus_fields cfg s) as (Hd & _ & Hu & _).
  rewrite thermostat_differs_spec; unfold spec_differs; cbv zeta.
  rewrite Hd, Hu, parseStatus_HeatingThreshold, parseStatus_CoolingThreshold,
    parseStatus_TargetHeatingCoolingState.
  set (u := parsedUnits _ _).
  destruct (Qlt_bool 0 (heatSetpoint (device s))) eqn:Eh;
  [apply Qlt_bool_spec in Eh | apply Qlt_bool_false in Eh];
  destruct (Qlt_bool 0 (coolSetpoint (device s))) eqn:Ec;
  [apply Qlt_bool_spec in Ec | apply Qlt_bool_false in Ec | apply Qlt_bool_spec in Ec | apply Qlt_bool_false in Ec];
  (split; [intros [H | [H | H]] | intros [[H1 H2] | [H1 H2]]]);
  try (exfalso; apply H; reflexivity); try (exfalso; lra); tauto.
Qed.

(** ** A successful refresh, and what is pushed after it *)

Lemma updateHomeKitCharacteristics_eq (cfg : Config) (s : St) :
  updateHomeKitCharacteristics cfg s = (s, snapshot_publish cfg s, Some tt).
Proof.
  unfold updateHomeKitCharacteristics, snapshot_publish, owned_chars, bind, get, emit, ret; simpl.
  destruct (fanEnabled cfg s); reflexivity.
Qed.

Lemma refreshStatus_ok (cfg : Config) (net : Net) (s : St) (d : Device)
  (Hd : net_device net = Some d)
  (Hf : fanEnabled cfg (set_device d s) = false \/ net_fan net <> None) :
  let s1 := set_device d s in
  let s2 := if fanEnabled cfg s1 then set_deviceFan (net_fan net) s1 else s1 in
  refreshStatus cfg net s =
    (parseStatus cfg s2,
     (GetDevice :: (if fanEnabled cfg s1 then [GetFan] else []) ++
      snapshot_publish cfg (parseStatus cfg s2))%list,
     Some tt).
Proof.
  cbv zeta.
  unfold refreshStatus, catch, bind, await, emit, modify, get, ret, throw; simpl.
  rewrite Hd; simpl.
  destruct (fanEnabled cfg (set_device d s)) eqn:E.
  - destruct (net_fan net) as [f|] eqn:Ef; [| destruct Hf as [H | H]; congruence].
    simpl. rewrite updateHomeKitCharacteristics_eq. reflexivity.
  - simpl. rewrite updateHomeKitCharacteristics_eq. reflexivity.
Qed.

(** When the device request succeeds, and the fan request too when the fan
    is enabled, a refresh stores the fetched device (and fan mode), runs
    [parseStatus] on it and publishes the parsed value of every owned
    characteristic, after the one or two requests and with no token renewal. *)
Theorem refreshStatus_success (cfg : Config) (net : Net) (s : St) (d : Device)
  (Hd : net_device net = Some d)
  (Hf : fanEnabled cfg (set_device d s) = false \/ net_fan net <> None) :
  let s1 := set_device d s in
  let s2 := if fanEnabled cfg s1 then set_deviceFan (net_fan net) s1 else s1 in
  refreshStatus cfg net s =
    (parseStatus cfg s2,
     (GetDevice :: (if fanEnabled cfg s1 then [GetFan] else []) ++
      snapshot_publish cfg (parseStatus cfg s2))%list,
     Some tt).
Proof. exact (refreshStatus_ok cfg net s d Hd Hf). Qed.

(** Witness: the sample device and fan mode fetched into the sample state. *)
Lemma refreshStatus_success_witness :
  let net := mkNet (Some sample_device) (Some "On") true in
  (net_device net = Some sample_device /\
   (fanEnabled sample_config (set_device sample_device sample_state) = false \/ net_fan net <> None)) /\
  refreshStatus sample_config net sample_state =
    (parseStatus sample_config (set_deviceFan (Some "On") (set_device sample_device sample_state)),
     (GetDevice :: [GetFan] ++
      snapshot_publish sample_config
        (parseStatus sample_config (set_deviceFan (Some "On") (set_device sample_device sample_state))))%list,
     Some tt).
Proof.
  cbv zeta.
  assert (Hd : net_device (mkNet (Some sample_device) (Some "On") true) = Some sample_device) by reflexivity.
  assert (Hf : fanEnabled sample_config (set_device sample_device sample_state) = false \/
               net_fan (mkNet (Some sample_device) (Some "On") true) <> None) by (right; discriminate).
  split; [split; assumption |].
  exact (refreshStatus_success sample_config (mkNet (Some sample_device) (Some "On") true)
           sample_state sample_device Hd Hf).
Defined.

(** A target temperature set from HomeKit on a refreshed state with
    positive remote setpoints is never written: the flush that follows
    makes no request and only clears the in-progress flag. *)
Theorem setTargetTemperature_not_pushed (cfg : Config) (net : Net) (s : St) (q : Q)
  (Hh : 0 < heatSetpoint (device s)) (Hc : 0 < coolSetpoint (device s)) :
  let '(s1, _, _) := setTargetTemperature q (parseStatus cfg s) in
  thermostatFlush cfg net s1 = (set_thermostatUpdateInProgress false s1, [], Some tt).
Proof.
  assert (Hsync : thermostat_differs (parseStatus cfg s) = false).
  { destruct (parseStatus_fields cfg s) as (Hd & _ & Hu & _).
    destruct (thermostat_differs (parseStatus cfg s)) eqn:E; [| reflexivity].
    exfalso; apply thermostat_differs_spec in E; unfold spec_differs in E.
    rewrite Hd, Hu, parseStatus_HeatingThreshold, parseStatus_CoolingThreshold,
      parseStatus_TargetHeatingCoolingState in E.
    apply Qlt_bool_spec in Hh, Hc; rewrite Hh, Hc in E.
    destruct E as [E | [E | E]]; apply E; reflexivity. }
  revert Hsync; generalize (parseStatus cfg s) as ps; intros ps Hsync.
  unfold setTargetTemperature, doThermostatUpdate_next, bind, modify, emit; simpl.
  unfold thermostatFlush, pushChanges, catch, bind, get, modify, ret; simpl.
  unfold thermostat_differs in *; simpl; rewrite Hsync; reflexivity.
Qed.

(** Witness: the sample state with remote setpoints 68 and 76. *)
Lemma setTargetTemperature_not_pushed_witness :
  let s := set_device (mkDevice "Fahrenheit" 70 45 Heat 68 76 "Heat" ["Heat"; "Off"; "Cool"]
                                0 90 50 90 true) sample_state in
  (0 < heatSetpoint (device s) /\ 0 < coolSetpoint (device s)) /\
  let '(s1, _, _) := setTargetTemperature 22 (parseStatus sample_config s) in
  thermostatFlush sample_config (mkNet None None false) s1 =
    (set_thermostatUpdateInProgress false s1, [], Some tt).
Proof.
  cbv zeta.
  assert (H1 : 0 < heatSetpoint (device (set_device (mkDevice "Fahrenheit" 70 45 Heat 68 76 "Heat"
                 ["Heat"; "Off"; "Cool"] 0 90 50 90 true) sample_state))) by reflexivity.
  assert (H2 : 0 < coolSetpoint (device (set_device (mkDevice "Fahrenheit" 70 45 Heat 68 76 "Heat"
                 ["Heat"; "Off"; "Cool"] 0 90 50 90 true) sample_state))) by reflexivity.
  split; [split; assumption |].
  exact (setTargetTemperature_not_pushed sample_config (mkNet None None false) _ 22 H1 H2).
Defined.

Lemma Qeq_bool_refl_eq (x : Q) : Qeq_bool x x = true.
Proof. apply Qeq_bool_iff; reflexivity. Qed.

(** Choosing another target state from HomeKit on a refreshed state whose
    remote setpoints are positive whole degrees makes the next thermostat
    push write that mode together with the device's own setpoints,
    unchanged; choosing the current mode makes no request at all. *)
Theorem mode_switch_payload (cfg : Config) (net : Net) (s : St) (m : THCS) (hz cz : Z)
  (Hh : heatSetpoint (device s) = inject_Z hz) (Hc : coolSetpoint (device s) = inject_Z cz)
  (Hhp : (0 < hz)%Z) (Hcp : (0 < cz)%Z) :
  let '(s2, _, _) := setTargetHeatingCoolingState m (parseStatus cfg s) in
  let '(_, evs, _) := pushChanges cfg net s2 in
  (m <> modes (cv_mode (device s)) ->
   exists rest, evs = PostThermostat (mkPayload (honeywellMode_at m) (thermostatSetpointStatus cfg)
                                                (inject_Z hz) (inject_Z cz)) :: rest) /\
  (m = modes (cv_mode (device s)) -> evs = []).
Proof.
  destruct (parseStatus_fields cfg s) as (Hd & _ & Hu & _).
  pose proof (parseStatus_HeatingThreshold cfg s) as HT.
  pose proof (parseStatus_CoolingThreshold cfg s) as CT.
  pose proof (parseStatus_TargetHeatingCoolingState cfg s) as HM.
  assert (Eh : Qlt_bool 0 (heatSetpoint (device s)) = true)
    by (apply Qlt_bool_spec; rewrite Hh; change 0 with (inject_Z 0); rewrite <- Zlt_Qlt; exact Hhp).
  assert (Ec : Qlt_bool 0 (coolSetpoint (device s)) = true)
    by (apply Qlt_bool_spec; rewrite Hc; change 0 with (inject_Z 0); rewrite <- Zlt_Qlt; exact Hcp).
  rewrite Eh in HT; rewrite Ec in CT.
  set (u := parsedUnits _ _) in *.
  revert Hd Hu HT CT HM; generalize (parseStatus cfg s) as ps; intros ps Hd Hu HT CT HM.
  rewrite Hh in HT; rewrite Hc in CT.
  unfold setTargetHeatingCoolingState, doThermostatUpdate_next, bind, modify, get, emit; simpl.
  unfold pushChanges, bind, get; simpl.
  unfold thermostat_differs; simpl. rewrite Hd, Hu, HT, CT, Hh, Hc, !Qeq_bool_refl_eq; simpl.
  assert (Hp : thermostat_payload cfg
                (set_thermostatUpdateInProgress true
                   (set_TargetTemperature
                      (if THCS_eqb m HEAT then toCelsius u (inject_Z hz) else toCelsius u (inject_Z cz))
                      (set_TargetHeatingCoolingState m ps))) =
               mkPayload (honeywellMode_at m) (thermostatSetpointStatus cfg) (inject_Z hz) (inject_Z cz)).
  { destruct m; unfold thermostat_payload; simpl; rewrite ?Hu, ?HT, ?CT, !toFahrenheit_toCelsius_whole;
    reflexivity. }
  rewrite Hp.
  destruct (THCS_eqb m (modes (cv_mode (device s)))) eqn:Em; simpl.
  - apply THCS_eqb_spec in Em. split; [contradiction | reflexivity].
  - unfold await, bind, emit, ret, throw; simpl.
    destruct (net_post net); simpl;
      [destruct (refreshStatus cfg net _) as [[? ?] ?] |];
      (split; [intros _; eexists; reflexivity | intro E; apply THCS_eqb_spec in E; congruence]).
Qed.

(** Witness: switching the sample device (setpoints 68 and 76, in Heat) to Cool. *)
Lemma mode_switch_payload_witness :
  let s := set_device (mkDevice "Fahrenheit" 70 45 Heat 68 76 "Heat" ["Heat"; "Off"; "Cool"]
                                0 90 50 90 true) sample_state in
  (heatSetpoint (device s) = inject_Z 68 /\ coolSetpoint (device s) = inject_Z 76 /\
   (0 < 68)%Z /\ (0 < 76)%Z) /\
  let '(s2, _, _) := setTargetHeatingCoolingState COOL (parseStatus sample_config s) in
  let '(_, evs, _) := pushChanges sample_config (mkNet None None true) s2 in
  (COOL <> modes (cv_mode (device s)) ->
   exists rest, evs = PostThermostat (mkPayload (honeywellMode_at COOL)
                        (thermostatSetpointStatus sample_config) (inject_Z 68) (inject_Z 76)) :: rest) /\
  (COOL = modes (cv_mode (device s)) -> evs = []).
Proof.
  cbv zeta.
  assert (H1 : heatSetpoint (device (set_device (mkDevice "Fahrenheit" 70 45 Heat 68 76 "Heat"
                 ["Heat"; "Off"; "Cool"] 0 90 50 90 true) sample_state)) = inject_Z 68) by reflexivity.
  assert (H2 : coolSetpoint (device (set_device (mkDevice "Fahrenheit" 70 45 Heat 68 76 "Heat"
                 ["Heat"; "Off"; "Cool"] 0 90 50 90 true) sample_state)) = inject_Z 76) by reflexivity.
  assert (H3 : (0 < 68)%Z) by lia.
  assert (H4 : (0 < 76)%Z) by lia.
  split; [repeat split; assumption |].
  exact (mode_switch_payload sample_config (mkNet None None true) _ COOL 68 76 H1 H2 H3 H4).
Defined.

(** ** Witnesses of the statements with hypotheses *)

(** Witness: the logging setting ['none']. *)
Lemma logging_silenced_witness :
  (str_includes "none" "debug" = false /\ "none" <> "standard") /\
  infoLog "none" = None /\ warnLog "none" = None /\ errorLog "none" = None /\
  debugLog "none" = None /\ debugWarnLog "none" = None /\ debugErrorLog "none" = None.
Proof.
  assert (H1 : str_includes "none" "debug" = false) by reflexivity.
  assert (H2 : "none" <> "standard") by discriminate.
  split; [split; assumption |].
  exact (logging_silenced "none" H1 H2).
Defined.

(** Witness: one tick during a push, then a free tick and a tick during a
    later push, which both refresh. *)
Lemma refreshTicks_after_first_witness :
  let busy := set_thermostatUpdateInProgress true sample_state in
  (forallb thermostatUpdateInProgress [busy] = true /\
   thermostatUpdateInProgress sample_state = false) /\
  refreshTicks ([busy] ++ [sample_state; busy]) = [sample_state; busy].
Proof.
  cbv zeta.
  assert (H1 : forallb thermostatUpdateInProgress [set_thermostatUpdateInProgress true sample_state] = true)
    by reflexivity.
  assert (H2 : thermostatUpdateInProgress sample_state = false) by reflexivity.
  split; [split; assumption |].
  exact (refreshTicks_after_first [set_thermostatUpdateInProgress true sample_state]
           [sample_state; set_thermostatUpdateInProgress true sample_state] H1 H2).
Defined.

(** Witness: calls at 0, 50 and 120 ms flush once, at 220 ms. *)
Lemma debounce_burst_single_witness :
  burst 100 [0; 50; 120]%Z = true /\ debounce 100 [0; 50; 120]%Z = [(last [0; 50; 120]%Z 0 + 100)%Z].
Proof.
  assert (H : burst 100 [0; 50; 120]%Z = true) by reflexivity.
  split; [exact H | exact (debounce_burst_single 0 [50; 120]%Z H)].
Defined.

(** Witness: 68 and 70 degrees Fahrenheit. *)
Lemma unit_conversions_monotone_witness :
  68 <= 70 /\
  toCelsius (Some FAHRENHEIT) 68 <= toCelsius (Some FAHRENHEIT) 70 /\
  toFahrenheit (Some FAHRENHEIT) 68 <= toFahrenheit (Some FAHRENHEIT) 70.
Proof.
  assert (H : 68 <= 70) by (unfold Qle; simpl; lia).
  split; [exact H | exact (unit_conversions_monotone (Some FAHRENHEIT) 68 70 H)].
Defined.

(** ** Refreshing again *)

Lemma St_ext (s t : St) :
  device s = device t -> deviceFan s = deviceFan t ->
  CurrentTemperature s = CurrentTemperature t -> TargetTemperature s = TargetTemperature t ->
  CurrentHeatingCoolingState s = CurrentHeatingCoolingState t ->
  TargetHeatingCoolingState s = TargetHeatingCoolingState t ->
  CoolingThresholdTemperature s = CoolingThresholdTemperature t ->
  HeatingThresholdTemperature s = HeatingThresholdTemperature t ->
  CurrentRelativeHumidity s = CurrentRelativeHumidity t ->
  TemperatureDisplayUnits s = TemperatureDisplayUnits t ->
  Active s = Active t -> TargetFanState s = TargetFanState t ->
  thermostatUpdateInProgress s = thermostatUpdateInProgress t ->
  fanUpdateInProgress s = fanUpdateInProgress t -> fanPipeline s = fanPipeline t -> s = t.
Proof. destruct s, t; simpl; intros; subst; reflexivity. Qed.

Lemma parsedUnits_idem (d : Device) (u : option TDU) :
  parsedUnits d (parsedUnits d u) = parsedUnits d u.
Proof.
  unfold parsedUnits.
  destruct (String.eqb (units d) "Fahrenheit") eqn:E1, (String.eqb (units d) "Celsius") eqn:E2; reflexivity.
Qed.

(** The fan characteristics [parseFanState] leaves depend only on the fan
    switch, the fan mode and the previous fan characteristics; running it on
    its own result changes nothing more. *)
Lemma parseFanState_fan_congr (cfg : Config) (s t : St) :
  device t = device s -> deviceFan t = deviceFan s ->
  Active t = Active (parseFanState cfg s) -> TargetFanState t = TargetFanState (parseFanState cfg s) ->
  Active (parseFanState cfg t) = Active (parseFanState cfg s) /\
  TargetFanState (parseFanState cfg t) = TargetFanState (parseFanState cfg s).
Proof.
  intros Hd Hf.
  assert (He : fanEnabled cfg t = fanEnabled cfg s) by (unfold fanEnabled; rewrite Hd; reflexivity).
  unfold parseFanState; rewrite He, Hf.
  destruct (fanEnabled cfg s); [| simpl; intros; split; assumption].
  destruct (deviceFan s) as [fm|]; [| simpl; intros; split; assumption].
  destruct (String.eqb fm "Auto"); [simpl; intros; split; reflexivity |].
  destruct (String.eqb fm "On"); [simpl; intros; split; reflexivity |].
  destruct (String.eqb fm "Circulate"); simpl; intros; split; congruence.
Qed.

Lemma parseStatus_fan (cfg : Config) (s : St) :
  Active (parseStatus cfg s) = Active (parseFanState cfg s) /\
  TargetFanState (parseStatus cfg s) = TargetFanState (parseFanState cfg s).
Proof.
  destruct (parseStatus_pre cfg s) as (t & -> & Hd & Hf & Ha & Ht).
  unfold parseFanState.
  assert (He : fanEnabled cfg t = fanEnabled cfg s) by (unfold fanEnabled; rewrite Hd; reflexivity).
  rewrite He, Hf.
  destruct (fanEnabled cfg s); [| split; assumption].
  destruct (deviceFan s) as [fm|]; [| split; assumption].
  destruct (String.eqb fm "Auto"); [split; reflexivity |].
  destruct (String.eqb fm "On"); [split; reflexivity |].
  destruct (String.eqb fm "Circulate"); split; simpl; congruence.
Qed.

Lemma parseStatus_idem (cfg : Config) (s : St) :
  parseStatus cfg (parseStatus cfg s) = parseStatus cfg s.
Proof.
  destruct (parseStatus_fields cfg (parseStatus cfg s)) as (Hd2 & Hf2 & Hu2 & Hct2 & Hh2 & Hc2 & Ht2 & Hfu2 & Hfp2).
  destruct (parseStatus_fields cfg s) as (Hd1 & Hf1 & Hu1 & Hct1 & Hh1 & Hc1 & Ht1 & Hfu1 & Hfp1).
  cbv zeta in *.
  rewrite Hd1 in Hu2, Hct2, Hh2, Hc2. rewrite Hu1, parsedUnits_idem in Hu2, Hct2.
  destruct (parseStatus_fan cfg (parseStatus cfg s)) as [Ha2 Htf2].
  destruct (parseStatus_fan cfg s) as [Ha1 Htf1].
  destruct (parseFanState_fan_congr cfg s (parseStatus cfg s)) as [Ha Htf]; [congruence .. |].
  apply St_ext; try congruence.
  - rewrite !parseStatus_TargetTemperature; cbv zeta.
    rewrite ?Hd1, ?Hu1, ?parsedUnits_idem, ?parseStatus_TargetTemperature; cbv zeta; rewrite ?Hd1, ?Hu1, ?parsedUnits_idem.
    repeat match goal with |- context [if ?b then _ else _] => destruct b end; reflexivity.
  - rewrite !parseStatus_TargetHeatingCoolingState, Hd1; reflexivity.
  - rewrite !parseStatus_CoolingThreshold, ?Hd1, ?Hu1, ?parsedUnits_idem, ?parseStatus_CoolingThreshold, ?Hd1, ?Hu1, ?parsedUnits_idem.
    repeat match goal with |- context [if ?b then _ else _] => destruct b end; reflexivity.
  - rewrite !parseStatus_HeatingThreshold, ?Hd1, ?Hu1, ?parsedUnits_idem, ?parseStatus_HeatingThreshold, ?Hd1, ?Hu1, ?parsedUnits_idem.
    repeat match goal with |- context [if ?b then _ else _] => destruct b end; reflexivity.
Qed.

(** A refresh is idempotent: parsing the same remote snapshot a second
    time changes no characteristic, whatever the units, setpoints, modes
    and fan mode it holds. *)
Theorem parseStatus_idempotent (cfg : Config) (s : St) :
  parseStatus cfg (parseStatus cfg s) = parseStatus cfg s.
Proof. apply parseStatus_idem. Qed.

Lemma set_device_same (s : St) : set_device (device s) s = s.
Proof. destruct s; reflexivity. Qed.

Lemma set_deviceFan_same (s : St) : set_deviceFan (deviceFan s) s = s.
Proof. destruct s; reflexivity. Qed.

(** Refreshing twice with the same successful remote responses: the second
    refresh makes the same requests, publishes the same values and leaves
    the state as the first one left it. *)
Theorem refreshStatus_twice (cfg : Config) (net : Net) (s : St) (d : Device)
  (Hd : net_device net = Some d)
  (Hf : fanEnabled cfg (set_device d s) = false \/ net_fan net <> None) :
  let '(s1, e1, r1) := refreshStatus cfg net s in
  refreshStatus cfg net s1 = (s1, e1, r1).
Proof.
  rewrite (refreshStatus_ok cfg net s d Hd Hf); cbv zeta.
  set (s2 := if fanEnabled cfg (set_device d s) then _ else _).
  assert (Hd2 : device s2 = d) by (subst s2; destruct (fanEnabled _ _); reflexivity).
  assert (Hf2 : fanEnabled cfg (set_device d s) = true -> deviceFan s2 = net_fan net)
    by (subst s2; intro E; rewrite E; reflexivity).
  destruct (parseStatus_fields cfg s2) as (Hd3 & Hf3 & _).
  set (s3 := parseStatus cfg s2) in *.
  assert (Hs : set_device d s3 = s3) by (rewrite <- Hd2, <- Hd3; apply set_device_same).
  assert (He : fanEnabled cfg s3 = fanEnabled cfg (set_device d s))
    by (unfold fanEnabled; rewrite Hd3, Hd2; reflexivity).
  assert (Hf' : fanEnabled cfg (set_device d s3) = false \/ net_fan net <> None) by (rewrite Hs, He; exact Hf).
  rewrite (refreshStatus_ok cfg net s3 d Hd Hf'); cbv zeta.
  rewrite Hs, He.
  assert (Hs3 : (if fanEnabled cfg (set_device d s) then set_deviceFan (net_fan net) s3 else s3) = s3).
  { destruct (fanEnabled cfg (set_device d s)) eqn:E; [| reflexivity].
    rewrite <- (Hf2 eq_refl), <- Hf3; apply set_deviceFan_same. }
  rewrite Hs3; subst s3; rewrite parseStatus_idem; reflexivity.
Qed.

(** Witness: the sample device and fan mode, fetched twice. *)
Lemma refreshStatus_twice_witness :
  let net := mkNet (Some sample_device) (Some "On") true in
  (net_device net = Some sample_device /\
   (fanEnabled sample_config (set_device sample_device sample_state) = false \/ net_fan net <> None)) /\
  let '(s1, e1, r1) := refreshStatus sample_config net sample_state in
  refreshStatus sample_config net s1 = (s1, e1, r1).
Proof.
  cbv zeta.
  assert (Hd : net_device (mkNet (Some sample_device) (Some "On") true) = Some sample_device) by reflexivity.
  assert (Hf : fanEnabled sample_config (set_device sample_device sample_state) = false \/
               net_fan (mkNet (Some sample_device) (Some "On") true) <> None) by (right; discriminate).
  split; [split; assumption |].
  exact (refreshStatus_twice sample_config (mkNet (Some sample_device) (Some "On") true)
           sample_state sample_device Hd Hf).
Defined.

(** The fan mode a fan push sends, read back by the next refresh, restores
    the target fan state, and the active state too except in Auto, which
    reads back as inactive. *)
Theorem fan_mode_readback (cfg : Config) (s : St) (H : fanEnabled cfg s = true) :
  let s' := parseStatus cfg (set_deviceFan (Some (fan_mode s)) s) in
  TargetFanState s' = TargetFanState s /\
  Active s' = (if TFS_eqb (TargetFanState s) FAN_AUTO then INACTIVE else Active s).
Proof.
  cbv zeta.
  destruct (parseStatus_fan cfg (set_deviceFan (Some (fan_mode s)) s)) as [-> ->].
  unfold parseFanState, fan_mode.
  change (fanEnabled cfg (set_deviceFan (Some (if TFS_eqb (TargetFanState s) FAN_AUTO then "Auto"
     else if TFS_eqb (TargetFanState s) MANUAL && Active_eqb (Active s) ACTIVE then "On"
     else if TFS_eqb (TargetFanState s) MANUAL && Active_eqb (Active s) INACTIVE then "Circulate"
     else "Auto")) s)) with (fanEnabled cfg s).
  rewrite H.
  destruct s as [? ? ? ? ? ? ? ? ? ? [|] [|] ? ? ?]; split; reflexivity.
Qed.

(** Witness: the sample state, whose fan is enabled and shown. *)
Lemma fan_mode_readback_witness :
  fanEnabled sample_config sample_state = true /\
  let s' := parseStatus sample_config (set_deviceFan (Some (fan_mode sample_state)) sample_state) in
  TargetFanState s' = TargetFanState sample_state /\
  Active s' = (if TFS_eqb (TargetFanState sample_state) FAN_AUTO then INACTIVE else Active sample_state).
Proof.
  assert (H : fanEnabled sample_config sample_state = true) by reflexivity.
  split; [exact H | exact (fan_mode_readback sample_config sample_state H)].
Defined.
